(** * mas_perception_libs: the Boost.Python wrapper module

    A shallow embedding of [ros/src/boost_python_module.cpp] and the
    properties its specification states about it.

    The wrapper functions are translated one by one.  What they call but
    the file does not define (the perception library behind the wrappers,
    the message codecs, OpenCV, PCL) enters either as a [Variable] of the
    section that holds the wrappers, or as a definition whose comment
    starts with "Modelled from the spec:". *)

From Stdlib Require Import ZArith NArith List String Lia.
From Stdlib Require Import Floats.SpecFloat.
From stdpp Require Import base option list gmap.

Local Open Scope string_scope.
Local Open Scope Z_scope.

(* ================================================================== *)
(** * Exceptions and outcomes *)
(* ================================================================== *)

(** The Python exception a failed Boost.Python conversion sets before it
    raises [boost::python::error_already_set]. *)
Inductive py_error : Type :=
| PyTypeError
| PyOverflowError
| PyIndexError.

(** The C++ exceptions that leave the wrappers.  Boost.Python hands
    [std::invalid_argument] to the caller as [ValueError] and
    [std::runtime_error] as [RuntimeError]. *)
Inductive exception : Type :=
| invalid_argument (what : string)
| runtime_error (what : string)
| error_already_set (e : py_error).

(** What a call does: it returns, it throws, or it runs into behaviour
    the C++ standard leaves undefined. *)
Inductive outcome (A : Type) : Type :=
| Ok (a : A)
| Throw (e : exception)
| Undefined.

Arguments Ok {A} a.
Arguments Throw {A} e.
Arguments Undefined {A}.

Definition obind {A B : Type} (c : outcome A) (k : A -> outcome B) : outcome B :=
  match c with
  | Ok a => k a
  | Throw e => Throw e
  | Undefined => Undefined
  end.

Declare Scope outcome_scope.
Delimit Scope outcome_scope with outcome.
Notation "'let*' x ':=' c 'in' k" := (obind c (fun x => k))
  (at level 10, x name, c at level 100, k at level 200) : outcome_scope.
Local Open Scope outcome_scope.

Definition is_invalid_argument {A : Type} (o : outcome A) : Prop :=
  exists what, o = Throw (invalid_argument what).

(* ================================================================== *)
(** * Numbers: C++ [double] and [int] *)
(* ================================================================== *)

(** A [double] is an IEEE 754 binary64 datum. *)
Definition double : Type := spec_float.

Definition INT_MIN : Z := - 2 ^ 31.
Definition INT_MAX : Z := 2 ^ 31 - 1.

Definition in_int_range (z : Z) : bool := (INT_MIN <=? z) && (z <=? INT_MAX).

(** The integer part of a finite [double]: the fraction is dropped, so
    the value moves toward zero.  [Z.shiftl] by a negative amount shifts
    right, which on the positive mantissa is the floor. *)
Definition SFtrunc (d : double) : option Z :=
  match d with
  | S754_zero _ => Some 0
  | S754_finite s m e => Some (cond_Zopp s (Z.shiftl (Z.pos m) e))
  | S754_infinity _ => None
  | S754_nan => None
  end.

(** [static_cast<int>(d)]: the truncated value when an [int] can hold it;
    the behaviour is undefined otherwise (NaN, infinities and values
    beyond the [int] range). *)
Definition static_cast_int (d : double) : outcome Z :=
  match SFtrunc d with
  | Some z => if in_int_range z then Ok z else Undefined
  | None => Undefined
  end.

(** An [int] stored in a [cv::Scalar] of [double]s: every 32-bit integer
    is a [double], so the channel is kept as the integer it holds. *)
Record Scalar : Type := mkScalar {
  val0 : Z;
  val1 : Z;
  val2 : Z;
  val3 : Z
}.

(** The OpenCV macro [CV_RGB(r, g, b)], which is [cv::Scalar(b, g, r, 0)]. *)
Definition CV_RGB (r g b : Z) : Scalar := mkScalar b g r 0.

(* ================================================================== *)
(** * OpenCV geometry *)
(* ================================================================== *)

Record Size : Type := mkSize {
  size_width : Z;
  size_height : Z
}.

Record Rect : Type := mkRect {
  rect_x : Z;
  rect_y : Z;
  rect_width : Z;
  rect_height : Z
}.

(* ================================================================== *)
(** * BoundingBox2D *)
(* ================================================================== *)

(** Modelled from the spec: the struct [BoundingBox2D] of
    [bounding_box_2d.h], which the wrapper file includes and extends.
    The spec gives it integer geometry, a label and a display colour;
    the member names are the ones the wrapper assigns. *)
Record BoundingBox2D : Type := mkBoundingBox2D {
  mLabel : string;
  mColor : Scalar;
  mX : Z;
  mY : Z;
  mWidth : Z;
  mHeight : Z
}.

(** Modelled from the spec: [BoundingBox2D::getCvRect], the spec's
    [toRect]: the box's geometry as a rectangle region. *)
Definition getCvRect (b : BoundingBox2D) : Rect :=
  mkRect (mX b) (mY b) (mWidth b) (mHeight b).

(** Modelled from the spec: [BoundingBox2D::updateBox], the spec's
    explicit update: the geometry is set again, label and colour stay. *)
Definition updateBox (b : BoundingBox2D) (r : Rect) : BoundingBox2D :=
  mkBoundingBox2D (mLabel b) (mColor b)
                  (rect_x r) (rect_y r) (rect_width r) (rect_height r).

(* ================================================================== *)
(** * Python objects as Boost.Python sees them *)
(* ================================================================== *)

(** The objects a [bp::tuple] or [bp::list] argument can hold, as far as
    the wrappers tell them apart. *)
Inductive py_object : Type :=
| PyFloat (d : double)
| PyInt (z : Z)
| PyStr (s : string)
| PyNone
| PyBox (b : BoundingBox2D).

(** [t[i]] on a [bp::tuple] or [bp::list]. *)
Definition py_getitem (t : list py_object) (i : nat) : outcome py_object :=
  match t !! i with
  | Some o => Ok o
  | None => Throw (error_already_set PyIndexError)
  end.

(** A Python integer as a [double]: rounded to nearest, ties to even;
    an integer beyond the [double] range raises [OverflowError]. *)
Definition PyLong_AsDouble (z : Z) : outcome double :=
  match binary_normalize 53 1024 z 0 false with
  | S754_infinity _ => Throw (error_already_set PyOverflowError)
  | d => Ok d
  end.

(** [bp::extract<double>(o)] used as a [double]: numbers convert, any
    other object raises [TypeError]. *)
Definition extract_double (o : py_object) : outcome double :=
  match o with
  | PyFloat d => Ok d
  | PyInt z => PyLong_AsDouble z
  | _ => Throw (error_already_set PyTypeError)
  end.

(** [bp::extract<BoundingBox2DWrapper>(o)] used as a value. *)
Definition extract_box (o : py_object) : outcome BoundingBox2D :=
  match o with
  | PyBox b => Ok b
  | _ => Throw (error_already_set PyTypeError)
  end.

(** The expression [static_cast<int>(bp::extract<double>(o))]. *)
Definition as_int (o : py_object) : outcome Z :=
  let* d := extract_double o in
  static_cast_int d.

(** The expression [static_cast<int>(bp::extract<double>(t[i]))]. *)
Definition item_as_int (t : list py_object) (i : nat) : outcome Z :=
  let* o := py_getitem t i in
  as_int o.

(* ================================================================== *)
(** * The constructor of BoundingBox2DWrapper *)
(* ================================================================== *)

(** [BoundingBox2DWrapper(pLabel, pColor, pBox)].  The base constructor
    runs first; every member it set is assigned again before the
    constructor returns, so a completed construction is the record of
    the six assignments.  The three channel casts are written in the
    order of the macro's arguments. *)
Definition BoundingBox2DWrapper (pLabel : string) (pColor pBox : list py_object)
  : outcome BoundingBox2D :=
  if negb (length pColor =? 3)%nat then
    Throw (invalid_argument "pColor is not a 3-tuple containing integers")
  else
    let* r := item_as_int pColor 0 in
    let* g := item_as_int pColor 1 in
    let* b := item_as_int pColor 2 in
    if negb (length pBox =? 4)%nat then
      Throw (invalid_argument "box geometry is not a tuple containing 4 numerics")
    else
      let* x := item_as_int pBox 0 in
      let* y := item_as_int pBox 1 in
      let* w := item_as_int pBox 2 in
      let* h := item_as_int pBox 3 in
      Ok (mkBoundingBox2D pLabel (CV_RGB r g b) x y w h).

(* ================================================================== *)
(** * Messages *)
(* ================================================================== *)

(** One cell of a cloud: three [float] coordinates, NaN where the sensor
    saw nothing, and the packed colour when the cloud records one. *)
Record Point : Type := mkPoint {
  pt_x : spec_float;
  pt_y : spec_float;
  pt_z : spec_float;
  pt_rgb : option Z
}.

(** [sensor_msgs::PointCloud2] after decoding: [height] and [width] are
    the message's unsigned 32-bit members, [points] is its buffer read
    as cells, row after row. *)
Record PointCloud2 : Type := mkPointCloud2 {
  header : string;
  height : N;
  width : N;
  points : list Point
}.

(** [sensor_msgs::Image] after decoding. *)
Record Image : Type := mkImage {
  image_height : N;
  image_width : N;
  image_data : list Z
}.

Definition Matrix4f : Type := list (list spec_float).

(* ================================================================== *)
(** * Arrays shared between Python and C++ *)
(* ================================================================== *)

(** A pixel or coordinate array as the store holds it. *)
Record ndarray (elem : Type) : Type := mkNdarray {
  nd_rows : Z;
  nd_cols : Z;
  nd_elems : list elem
}.

Arguments mkNdarray {elem} _ _ _.
Arguments nd_rows {elem} _.
Arguments nd_cols {elem} _.
Arguments nd_elems {elem} _.

(** A [cv::Mat] header: the shape, and where the elements live.  Copying
    the header does not copy the elements. *)
Record Mat : Type := mkMat {
  rows : Z;
  cols : Z;
  data : positive
}.

(** Code that works on arrays runs against the store: it ends in an
    outcome and leaves a store behind, also when it throws. *)
Definition mret {S A : Type} (a : A) : S -> outcome A * S :=
  fun h => (Ok a, h).

Definition mbind {S A B : Type} (c : S -> outcome A * S)
    (k : A -> S -> outcome B * S) : S -> outcome B * S :=
  fun h =>
    match c h with
    | (Ok a, h') => k a h'
    | (Throw e, h') => (Throw e, h')
    | (Undefined, h') => (Undefined, h')
    end.

Definition lift {S A : Type} (o : outcome A) : S -> outcome A * S :=
  fun h => (o, h).

Declare Scope store_scope.
Delimit Scope store_scope with store.
Notation "'do*' x ':=' c 'in' k" := (mbind c (fun x => k))
  (at level 10, x name, c at level 100, k at level 200) : store_scope.

(** The loop of [drawLabeledBoxesWrapper] that fills the vector: the
    items are extracted front to back, the first failure ends the loop. *)
Fixpoint extract_boxes (l : list py_object) : outcome (list BoundingBox2D) :=
  match l with
  | [] => Ok []
  | o :: l' =>
      let* b := extract_box o in
      let* bs := extract_boxes l' in
      Ok (b :: bs)
  end.

(* ================================================================== *)
(** * The wrappers *)
(* ================================================================== *)

Section Wrappers.

Context {elem : Type}.

Local Abbreviation M A :=
  (gmap positive (ndarray elem) -> outcome A * gmap positive (ndarray elem)).

(** The message codecs of [ros_message_serialization.hpp]. *)
Variable from_python : string -> outcome PointCloud2.
Variable to_python : PointCloud2 -> string.
Variable to_python_image : Image -> string.

(** The array converters of [pyboostcvconverter.hpp]. *)
Variable fromNDArrayToMat : positive -> M Mat.
Variable fromMatToNDArray : Mat -> M positive.

(** The perception library behind the wrappers. *)
Variable drawLabeledBoxes : Mat -> list BoundingBox2D -> Z -> double -> M unit.
Variable fitBoxToImage : Size -> Rect -> Z -> outcome Rect.
Variable cropOrganizedCloudMsg : PointCloud2 -> BoundingBox2D -> outcome PointCloud2.
Variable cropCloudMsgToXYZ : PointCloud2 -> BoundingBox2D -> M Mat.

(** OpenCV, PCL and pcl_ros. *)
Variable cv2eigen : Mat -> M Matrix4f.
Variable pcl_toROSMsg : PointCloud2 -> outcome Image.
Variable pcl_ros_transformPointCloud : Matrix4f -> PointCloud2 -> outcome PointCloud2.

Local Open Scope store_scope.

(** [drawLabeledBoxesWrapper(pNdarrayImage, pBoxList, pThickness, pFontScale)] *)
Definition drawLabeledBoxesWrapper (pNdarrayImage : positive)
    (pBoxList : list py_object) (pThickness : Z) (pFontScale : double)
  : M positive :=
  do* image := fromNDArrayToMat pNdarrayImage in
  do* boundingBoxes := lift (extract_boxes pBoxList) in
  do* _ := drawLabeledBoxes image boundingBoxes pThickness pFontScale in
  fromMatToNDArray image.

(** [fitBoxToImageWrapper(pImageSizeTuple, pBox, pOffset)] *)
Definition fitBoxToImageWrapper (pImageSizeTuple : list py_object)
    (pBox : BoundingBox2D) (pOffset : Z) : outcome BoundingBox2D :=
  if negb (length pImageSizeTuple =? 2)%nat then
    Throw (invalid_argument "image size is not a tuple containing 2 numerics")
  else
    let* width := item_as_int pImageSizeTuple 0 in
    let* height := item_as_int pImageSizeTuple 1 in
    let imageSize := mkSize width height in
    let* adjustedBox := fitBoxToImage imageSize (getCvRect pBox) pOffset in
    Ok (updateBox pBox adjustedBox).

(** [cloudMsgToImageMsgWrapper(pSerialCloud)] *)
Definition cloudMsgToImageMsgWrapper (pSerialCloud : string) : outcome string :=
  let* cloudMsg := from_python pSerialCloud in
  if (height cloudMsg <=? 1)%N then
    Throw (invalid_argument "Input point cloud is not organized!")
  else
    let* imageMsg := pcl_toROSMsg cloudMsg in
    Ok (to_python_image imageMsg).

(** [cropOrganizedCloudMsgWrapper(pSerialCloud, pBox)] *)
Definition cropOrganizedCloudMsgWrapper (pSerialCloud : string)
    (pBox : BoundingBox2D) : outcome string :=
  let* cloudMsg := from_python pSerialCloud in
  let* croppedCloudMsg := cropOrganizedCloudMsg cloudMsg pBox in
  Ok (to_python croppedCloudMsg).


(** [transformPointCloudWrapper(pSerialCloud, pTfMatrix)] *)
Definition transformPointCloudWrapper (pSerialCloud : string)
    (pTfMatrix : positive) : M string :=
  do* tfMatrix := fromNDArrayToMat pTfMatrix in
  if negb (rows tfMatrix =? 4) || negb (cols tfMatrix =? 4) then
    lift (Throw (runtime_error "transformation is not a 4x4 matrix"))
  else
    do* eigenTfMatrix := cv2eigen tfMatrix in
    do* cloudMsg := lift (from_python pSerialCloud) in
    do* transformedCloud :=
      lift (pcl_ros_transformPointCloud eigenTfMatrix cloudMsg) in
    mret (to_python transformedCloud).

End Wrappers.

(* ================================================================== *)
(** * The library behind the wrappers *)
(* ================================================================== *)

Module Lib.

(** The spec names only the error class of a failed fit; this text
    stands for whatever the library says. *)
Definition fit_error : string := "box does not fit the image".

(** Modelled from the spec: [fitBoxToImage] of [bounding_box_2d.h].
    The box grows by [pOffset] on each side and is then cut to the
    image; a box left without width or height is an [InvalidArgument]. *)
Definition fitBoxToImage (pImageSize : Size) (pBox : Rect) (pOffset : Z)
  : outcome Rect :=
  let left := Z.max 0 (rect_x pBox - pOffset) in
  let top := Z.max 0 (rect_y pBox - pOffset) in
  let right :=
    Z.min (size_width pImageSize) (rect_x pBox + rect_width pBox + pOffset) in
  let bottom :=
    Z.min (size_height pImageSize) (rect_y pBox + rect_height pBox + pOffset) in
  if (right - left <=? 0) || (bottom - top <=? 0) then
    Throw (invalid_argument fit_error)
  else
    Ok (mkRect left top (right - left) (bottom - top)).

(** The grid of a cloud as the size [fitBoxToImage] cuts to. *)
Definition cloud_size (c : PointCloud2) : Size :=
  mkSize (Z.of_N (width c)) (Z.of_N (height c)).

(** The cells of rows [y .. y+h-1], columns [x .. x+w-1] of a grid that
    is [W] cells wide, row after row. *)
Definition crop_rows (pts : list Point) (W x y w h : nat) : list Point :=
  concat (map (fun r => take w (drop (r * W + x) pts)) (seq y h)).

Definition crop_rect (c : PointCloud2) (r : Rect) : list Point :=
  crop_rows (points c) (N.to_nat (width c))
            (Z.to_nat (rect_x r)) (Z.to_nat (rect_y r))
            (Z.to_nat (rect_width r)) (Z.to_nat (rect_height r)).

(** Modelled from the spec: [cropOrganizedCloudMsg] of
    [point_cloud_utils.h].  A cloud of height 1 or less is refused as
    "not organized"; the box is fitted to the grid with offset 0 and the
    cells under it come back as a cloud of the fitted size, in row and
    column order and untouched. *)
Definition cropOrganizedCloudMsg (pCloudMsg : PointCloud2) (pBox : BoundingBox2D)
  : outcome PointCloud2 :=
  if (height pCloudMsg <=? 1)%N then
    Throw (invalid_argument "not organized")
  else
    let* r := fitBoxToImage (cloud_size pCloudMsg) (getCvRect pBox) 0 in
    Ok (mkPointCloud2 (header pCloudMsg)
                      (Z.to_N (rect_height r)) (Z.to_N (rect_width r))
                      (crop_rect pCloudMsg r)).







End Lib.

(* ================================================================== *)
(** * Vocabulary of the statements *)
(* ================================================================== *)

(** [numeric_as o z]: the object is a number that an [int] can hold
    after truncation, and [z] is that [int]. *)
Definition numeric_as (o : py_object) (z : Z) : Prop := as_int o = Ok z.

(** The exact value of a finite [double] is [SFnum d / SFden d]. *)
Definition SFnum (d : double) : Z :=
  match d with
  | S754_finite s m e => cond_Zopp s (Z.pos m) * 2 ^ Z.max 0 e
  | _ => 0
  end.

Definition SFden (d : double) : Z :=
  match d with
  | S754_finite s m e => 2 ^ Z.max 0 (- e)
  | _ => 1
  end.

Definition SFfinite (d : double) : bool :=
  match d with
  | S754_zero _ | S754_finite _ _ _ => true
  | _ => false
  end.

(** The exact value cut toward zero: [Z.quot] rounds toward zero. *)
Definition toward_zero (d : double) : Z := Z.quot (SFnum d) (SFden d).

(** A [double] whose integer part an [int] holds. *)
Definition castable (d : double) : Prop :=
  SFfinite d = true /\ INT_MIN <= toward_zero d <= INT_MAX.

Definition in_channel_range (z : Z) : Prop := 0 <= z <= 255.

(** The box lies inside an image of the given size. *)
Definition inside_image (W H : Z) (b : BoundingBox2D) : Prop :=
  0 <= mX b /\ 0 <= mY b /\ mX b + mWidth b <= W /\ mY b + mHeight b <= H.

(* ================================================================== *)
(** * Sample data *)
(* ================================================================== *)

Module Samples.

(** -1.5, -2.75, 0.25 and -4 as [double]s. *)
Definition minus_1_5 : double := S754_finite true 3 (-1).
Definition minus_2_75 : double := S754_finite true 11 (-2).
Definition quarter : double := S754_finite false 1 (-2).
Definition minus_4 : double := S754_finite true 1 2.

Definition red : list py_object := [PyInt 255; PyInt 0; PyInt 0].
Definition off_scale : list py_object := [PyInt 300; PyInt 0; PyInt (-5)].

Definition cup : BoundingBox2D :=
  mkBoundingBox2D "cup" (CV_RGB 255 0 0) 10 20 30 40.

(** A small integer as a [float]. *)
Definition fl (z : Z) : spec_float := binary_normalize 24 128 z 0 false.

Definition cell (k : Z) : Point :=
  mkPoint (fl k) (fl (k + 10)) (fl (k + 20)) (Some k).

(** An organized cloud of 2 rows and 3 columns, and a laser scan of one
    row. *)
Definition grid : PointCloud2 :=
  mkPointCloud2 "camera" 2 3 [cell 0; cell 1; cell 2; cell 3; cell 4; cell 5].

Definition scan : PointCloud2 :=
  mkPointCloud2 "laser" 1 3 [cell 0; cell 1; cell 2].

(** Stand-ins for the message codecs and for the PCL conversions. *)
Definition decode (s : string) : outcome PointCloud2 :=
  if String.eqb s "grid" then Ok grid
  else if String.eqb s "scan" then Ok scan
  else Throw (runtime_error "buffer overrun").

Definition encode (c : PointCloud2) : string := header c.

Definition encode_image (i : Image) : string := "image".

Definition to_image (c : PointCloud2) : outcome Image :=
  match mapM pt_rgb (points c) with
  | Some px => Ok (mkImage (height c) (width c) px)
  | None => Throw (runtime_error "No rgb field!!")
  end.

Definition to_eigen {elem : Type} (m : Mat)
  : gmap positive (ndarray elem) -> outcome Matrix4f * gmap positive (ndarray elem) :=
  mret [].

Definition keep_cloud (m : Matrix4f) (c : PointCloud2) : outcome PointCloud2 := Ok c.

(** A store whose address 1 holds a 3x3 matrix, and one whose address 1
    holds a 2x2 grey image. *)
Definition matrix3x3 : ndarray Z := mkNdarray 3 3 [1; 0; 0; 0; 1; 0; 0; 0; 1].

Definition store3x3 : gmap positive (ndarray Z) := {[ 1%positive := matrix3x3 ]}.

Definition grey2x2 : ndarray Z := mkNdarray 2 2 [7; 7; 7; 7].

Definition store_grey : gmap positive (ndarray Z) := {[ 1%positive := grey2x2 ]}.

(** Stand-ins for the array converters and for the library's drawing:
    a matrix header laid over the array at the address, the address of
    a matrix's elements handed back as the array, and a drawing that
    draws nothing. *)
Definition as_matrix {elem : Type} (o : positive)
  : gmap positive (ndarray elem) -> outcome Mat * gmap positive (ndarray elem) :=
  fun h =>
    match h !! o with
    | Some a => (Ok (mkMat (nd_rows a) (nd_cols a) o), h)
    | None => (Throw (error_already_set PyTypeError), h)
    end.

Definition as_array {elem : Type} (m : Mat)
  : gmap positive (ndarray elem) -> outcome positive * gmap positive (ndarray elem) :=
  mret (data m).

Definition no_draw {elem : Type} (m : Mat) (boxes : list BoundingBox2D)
    (thickness : Z) (scale : double)
  : gmap positive (ndarray elem) -> outcome unit * gmap positive (ndarray elem) :=
  mret tt.

Definition blue_cup : BoundingBox2D :=
  mkBoundingBox2D "cup" (CV_RGB 0 0 255) 0 0 1 1.


End Samples.

(* ================================================================== *)
(** * The other wrappers *)
(* ================================================================== *)

Section ImageWrappers.

Context {elem : Type}.

Local Abbreviation M A :=
  (gmap positive (ndarray elem) -> outcome A * gmap positive (ndarray elem)).

Variable from_python : string -> outcome PointCloud2.
Variable fromNDArrayToMat : positive -> M Mat.
Variable fromMatToNDArray : Mat -> M positive.

(** [cropImage] of [bounding_box_2d.h] and [cloudMsgToCvImage] of
    [point_cloud_utils.h]. *)
Variable cropImage : Mat -> BoundingBox2D -> Z -> M Mat.
Variable cloudMsgToCvImage : PointCloud2 -> M Mat.

Local Open Scope store_scope.

(** [cropImageWrapper(pNdarrayImage, pBox, pOffset)] *)
Definition cropImageWrapper (pNdarrayImage : positive) (pBox : BoundingBox2D)
    (pOffset : Z) : M positive :=
  do* image := fromNDArrayToMat pNdarrayImage in
  do* croppedImage := cropImage image pBox pOffset in
  fromMatToNDArray croppedImage.


End ImageWrappers.

(** [cv::Point2f] *)
Record Point2f : Type := mkPoint2f {
  p2_x : spec_float;
  p2_y : spec_float
}.

Section Legacy.

(** The messages of the legacy interface, the [ImageBoundingBox] object
    and the Python object a [boost::array<float, 2>] becomes. *)
Variables CameraInfo BoundingBoxList ImageList ImageBoundingBox_t PyVertex : Type.

Variable from_python_image : string -> outcome Image.
Variable from_python_camera_info : string -> outcome CameraInfo.
Variable from_python_box_list : string -> outcome BoundingBoxList.
Variable to_python_image_list : ImageList -> string.

(** The constructor of [ImageBoundingBox] and its two accessors. *)
Variable ImageBoundingBox :
  Image -> CameraInfo -> BoundingBoxList -> outcome ImageBoundingBox_t.
Variable cropped_image_list : ImageBoundingBox_t -> ImageList.
Variable box_vertices_vector : ImageBoundingBox_t -> list (list Point2f).

(** What [bp::list::append] makes of a [boost::array<float, 2>]: the
    object the registered converter builds, or the error of the
    conversion. *)
Variable array_to_python : spec_float * spec_float -> outcome PyVertex.

(** The inner loop: one array per vertex, x at index 0 and y at index 1,
    appended in order. *)
Fixpoint append_vertices (boxVertices : list Point2f) : outcome (list PyVertex) :=
  match boxVertices with
  | [] => Ok []
  | vertex :: rest =>
      let* boostVertex := array_to_python (p2_x vertex, p2_y vertex) in
      let* boostBoxVertices := append_vertices rest in
      Ok (boostVertex :: boostBoxVertices)
  end.

(** The outer loop: one list per box, appended in order. *)
Fixpoint append_boxes (boxVerticesVect : list (list Point2f))
  : outcome (list (list PyVertex)) :=
  match boxVerticesVect with
  | [] => Ok []
  | boxVertices :: rest =>
      let* boostBoxVertices := append_vertices boxVertices in
      let* boxVerticesList := append_boxes rest in
      Ok (boostBoxVertices :: boxVerticesList)
  end.

(** [getCropsAndBoundingBoxes(pSerialImageMsg, pSerialCameraInfo,
    pSerialBoundingBoxList)] *)
Definition getCropsAndBoundingBoxes
    (pSerialImageMsg pSerialCameraInfo pSerialBoundingBoxList : string)
  : outcome (string * list (list PyVertex)) :=
  let* imageMsg := from_python_image pSerialImageMsg in
  let* camInfo := from_python_camera_info pSerialCameraInfo in
  let* boundingBoxList := from_python_box_list pSerialBoundingBoxList in
  let* mImgBoundingBox := ImageBoundingBox imageMsg camInfo boundingBoxList in
  let serialImageList := to_python_image_list (cropped_image_list mImgBoundingBox) in
  let* boxVerticesList := append_boxes (box_vertices_vector mImgBoundingBox) in
  Ok (serialImageList, boxVerticesList).

End Legacy.

(* ================================================================== *)
(** * The attributes of a box in Python *)
(* ================================================================== *)

(** The members [BOOST_PYTHON_MODULE] exposes with [def_readwrite]:
    "x" for [mX], "y" for [mY], "width" for [mWidth], "height" for
    [mHeight] and "label" for [mLabel]. *)
Inductive attribute : Type :=
| attr_x
| attr_y
| attr_width
| attr_height
| attr_label.

(** Reading an exposed member. *)
Definition getattr (b : BoundingBox2D) (a : attribute) : py_object :=
  match a with
  | attr_x => PyInt (mX b)
  | attr_y => PyInt (mY b)
  | attr_width => PyInt (mWidth b)
  | attr_height => PyInt (mHeight b)
  | attr_label => PyStr (mLabel b)
  end.

(* ================================================================== *)
(** * More vocabulary and sample data *)
(* ================================================================== *)

(** An object that is not a number: a string, [None], a box. *)
Definition non_number (o : py_object) : Prop :=
  match o with
  | PyStr _ | PyNone | PyBox _ => True
  | PyFloat _ | PyInt _ => False
  end.

(** [int_valued o z]: the object is a Python integer in the [int] range,
    and [z] is that integer, or a [double] whose integer part an [int]
    holds, and [z] is its exact value cut toward zero. *)
Inductive int_valued : py_object -> Z -> Prop :=
| int_valued_int (z : Z) :
    INT_MIN <= z <= INT_MAX -> int_valued (PyInt z) z
| int_valued_float (d : double) :
    castable d -> int_valued (PyFloat d) (toward_zero d).


Definition is_box (o : py_object) : Prop := exists b, o = PyBox b.

(** A vertex and the Python object it became. *)
Definition vertex_object {PyVertex : Type}
    (array_to_python : spec_float * spec_float -> outcome PyVertex)
    (o : PyVertex) (v : Point2f) : Prop :=
  array_to_python (p2_x v, p2_y v) = Ok o.

Module MoreSamples.



(** 640.5 and 480.25 as [double]s. *)
Definition d640_5 : double := S754_finite false 1281 (-1).
Definition d480_25 : double := S754_finite false 1921 (-2).

(** Stand-ins for the library calls behind the image wrappers: the crop
    keeps the matrix, the cloud image is a new array of the cloud's
    packed colours. *)
Definition keep_image (m : Mat) (b : BoundingBox2D) (off : Z)
  : gmap positive (ndarray Z) -> outcome Mat * gmap positive (ndarray Z) :=
  mret m.


(** Stand-ins for the legacy interface: messages are strings, the
    cropper holds two boxes of vertices, a vertex becomes a pair. *)
Definition decode_image (s : string) : outcome Image := Ok (mkImage 2 2 [7; 7; 7; 7]).

Definition decode_text (s : string) : outcome string := Ok s.

(** 10^400, a Python integer no [double] holds. *)
Definition googol4 : Z := 10 ^ 400.

Definition two_boxes : list (list Point2f) :=
  [[mkPoint2f (Samples.fl 1) (Samples.fl 2); mkPoint2f (Samples.fl 3) (Samples.fl 4)];
   [mkPoint2f (Samples.fl 5) (Samples.fl 6)]].

Definition make_cropper (i : Image) (c b : string) : outcome (list (list Point2f)) :=
  Ok two_boxes.

Definition as_pair (a : spec_float * spec_float) : outcome (spec_float * spec_float) :=
  Ok a.

End MoreSamples.

(* ================================================================== *)
(** * Outcomes and conversions *)
(* ================================================================== *)

Lemma item_as_int_lookup (t : list py_object) (i : nat) (o : py_object) :
  t !! i = Some o -> item_as_int t i = as_int o.
Proof.
  intros Hl. unfold item_as_int, py_getitem. now rewrite Hl.
Qed.

Lemma in_int_range_spec (z : Z) :
  in_int_range z = true <-> INT_MIN <= z <= INT_MAX.
Proof.
  unfold in_int_range. rewrite andb_true_iff, !Z.leb_le. tauto.
Qed.

(** Shifting the mantissa is cutting the exact value toward zero. *)
Lemma shiftl_quot (m : positive) (e : Z) :
  Z.shiftl (Z.pos m) e = Z.quot (Z.pos m * 2 ^ Z.max 0 e) (2 ^ Z.max 0 (- e)).
Proof.
  destruct (Z.le_gt_cases 0 e) as [He | He].
  - rewrite Z.shiftl_mul_pow2 by assumption.
    rewrite (Z.max_r 0 e) by assumption.
    rewrite (Z.max_l 0 (- e)) by lia.
    now rewrite Z.pow_0_r, Z.quot_1_r.
  - rewrite <- (Z.opp_involutive e) at 1.
    rewrite Z.shiftl_opp_r, Z.shiftr_div_pow2 by lia.
    rewrite (Z.max_l 0 e) by lia.
    rewrite (Z.max_r 0 (- e)) by lia.
    rewrite Z.pow_0_r, Z.mul_1_r.
    symmetry. apply Z.quot_div_nonneg; [lia |].
    apply Z.pow_pos_nonneg; lia.
Qed.

Lemma SFtrunc_toward_zero (d : double) :
  SFfinite d = true -> SFtrunc d = Some (toward_zero d).
Proof.
  destruct d as [s | s | | s m e]; simpl; try discriminate; intros _.
  - reflexivity.
  - unfold toward_zero; simpl. f_equal.
    rewrite shiftl_quot.
    assert (Hden : 2 ^ Z.max 0 (- e) <> 0).
    { apply Z.pow_nonzero; lia. }
    destruct s; simpl; [| reflexivity].
    rewrite Z.mul_opp_l. now rewrite Z.quot_opp_l.
Qed.

Lemma static_cast_int_castable (d : double) :
  castable d -> static_cast_int d = Ok (toward_zero d).
Proof.
  intros [Hf Hr]. unfold static_cast_int.
  rewrite (SFtrunc_toward_zero d Hf).
  apply in_int_range_spec in Hr. now rewrite Hr.
Qed.

Lemma numeric_as_float (d : double) :
  castable d -> numeric_as (PyFloat d) (toward_zero d).
Proof.
  intros Hc. unfold numeric_as, as_int. simpl.
  now apply static_cast_int_castable.
Qed.

(** Three channels that convert leave the colour check and the three
    casts behind: what is left is the geometry part of the constructor. *)
Lemma constructor_after_color (pLabel : string) (pColor pBox : list py_object)
    (r g b : Z) :
  Forall2 numeric_as pColor [r; g; b] ->
  BoundingBox2DWrapper pLabel pColor pBox =
    if negb (length pBox =? 4)%nat then
      Throw (invalid_argument "box geometry is not a tuple containing 4 numerics")
    else
      let* x := item_as_int pBox 0 in
      let* y := item_as_int pBox 1 in
      let* w := item_as_int pBox 2 in
      let* h := item_as_int pBox 3 in
      Ok (mkBoundingBox2D pLabel (CV_RGB r g b) x y w h).
Proof.
  intros Hc.
  inversion Hc as [| o0 r' t0 l0 H0 Hc0]; subst.
  inversion Hc0 as [| o1 g' t1 l1 H1 Hc1]; subst.
  inversion Hc1 as [| o2 b' t2 l2 H2 Hc2]; subst.
  inversion Hc2; subst.
  unfold BoundingBox2DWrapper. simpl length. simpl negb at 1. cbv iota.
  rewrite (item_as_int_lookup _ 0 o0), (item_as_int_lookup _ 1 o1),
    (item_as_int_lookup _ 2 o2) by reflexivity.
  unfold numeric_as in H0, H1, H2. rewrite H0, H1, H2. reflexivity.
Qed.

Lemma constructor_ok (pLabel : string) (pColor pBox : list py_object)
    (r g b x y w h : Z) :
  Forall2 numeric_as pColor [r; g; b] ->
  Forall2 numeric_as pBox [x; y; w; h] ->
  BoundingBox2DWrapper pLabel pColor pBox =
    Ok (mkBoundingBox2D pLabel (CV_RGB r g b) x y w h).
Proof.
  intros Hc Hb. rewrite (constructor_after_color _ _ _ r g b Hc).
  inversion Hb as [| o0 x' t0 l0 H0 Hb0]; subst.
  inversion Hb0 as [| o1 y' t1 l1 H1 Hb1]; subst.
  inversion Hb1 as [| o2 w' t2 l2 H2 Hb2]; subst.
  inversion Hb2 as [| o3 h' t3 l3 H3 Hb3]; subst.
  inversion Hb3; subst.
  simpl length. simpl negb. cbv iota.
  rewrite (item_as_int_lookup _ 0 o0), (item_as_int_lookup _ 1 o1),
    (item_as_int_lookup _ 2 o2), (item_as_int_lookup _ 3 o3) by reflexivity.
  unfold numeric_as in H0, H1, H2, H3. rewrite H0, H1, H2, H3. reflexivity.
Qed.

(* ================================================================== *)
(** * Python integers as doubles *)
(* ================================================================== *)

Lemma digits2_pos_size (m : positive) : digits2_pos m = Pos.size m.
Proof. induction m as [m IH | m IH |]; simpl; now rewrite ?IH. Qed.

Lemma digits2_pos_iter_xO (m k : positive) :
  digits2_pos (Pos.iter xO m k) = (digits2_pos m + k)%positive.
Proof.
  induction k as [| k IH] using Pos.peano_ind.
  - simpl. lia.
  - rewrite Pos.iter_succ. simpl. rewrite IH. lia.
Qed.

Lemma iter_xO_value (m k : positive) :
  Z.pos (Pos.iter xO m k) = Z.pos m * 2 ^ Z.pos k.
Proof.
  induction k as [| k IH] using Pos.peano_ind.
  - simpl. lia.
  - rewrite Pos.iter_succ, Pos2Z.inj_xO, IH, Pos2Z.inj_succ.
    rewrite Z.pow_succ_r by lia. lia.
Qed.

(** Below 2^53 a mantissa has at most 53 digits. *)
Lemma digits2_pos_bound (m : positive) :
  Z.pos m < 2 ^ 53 -> 1 <= Z.pos (digits2_pos m) <= 53.
Proof.
  intros Hm. split; [lia |]. rewrite digits2_pos_size.
  pose proof (Pos.size_le m) as Hs.
  apply Pos2Z.pos_le_pos in Hs. rewrite Pos2Z.inj_pow in Hs.
  destruct (Z.le_gt_cases (Z.pos (Pos.size m)) 53) as [Hle | Hgt]; [assumption |].
  exfalso.
  assert (H54 : 2 ^ 54 <= 2 ^ Z.pos (Pos.size m)) by (apply Z.pow_le_mono_r; lia).
  change (2 ^ 54) with (2 * 2 ^ 53) in H54. lia.
Qed.

(** A mantissa below 2^53 is a [double] as it stands: rounding has
    nothing to drop, and the integer part is the mantissa again. *)
Lemma binary_round_exact (s : bool) (m : positive) :
  Z.pos m < 2 ^ 53 ->
  exists m' e',
    binary_round 53 1024 s m 0 = S754_finite s m' e' /\
    Z.shiftl (Z.pos m') e' = Z.pos m.
Proof.
  intros Hm. pose proof (digits2_pos_bound m Hm) as Hd.
  unfold binary_round, shl_align, fexp, emin.
  replace (Z.sub (Z.max (Z.sub (Z.add (Z.pos (digits2_pos m)) 0) 53)
                        (Z.sub (Z.sub 3 1024) 53)) 0)
    with (Z.pos (digits2_pos m) - 53) by lia.
  replace (Z.max (Z.sub (Z.add (Z.pos (digits2_pos m)) 0) 53)
                 (Z.sub (Z.sub 3 1024) 53))
    with (Z.pos (digits2_pos m) - 53) by lia.
  destruct (Z.pos (digits2_pos m) - 53) as [| k | k] eqn:Ek; try lia.
  - exists m, 0. split; [| reflexivity].
    unfold binary_round_aux, shr_fexp, fexp, emin, Zdigits2, shr. simpl shr_record_of_loc.
    replace (Z.sub (Z.max (Z.sub (Z.add (Z.pos (digits2_pos m)) 0) 53)
                          (Z.sub (Z.sub 3 1024) 53)) 0) with 0 by lia.
    simpl. replace (Z.sub (Z.max (Z.sub (Z.add (Z.pos (digits2_pos m)) 0) 53)
                                 (Z.sub (Z.sub 3 1024) 53)) 0) with 0 by lia.
    reflexivity.
  - exists (Pos.iter xO m k), (Z.neg k). split.
    + unfold binary_round_aux, shr_fexp, fexp, emin, Zdigits2, shr.
      simpl shr_record_of_loc. rewrite digits2_pos_iter_xO.
      replace (Z.sub (Z.max (Z.sub (Z.add (Z.pos (digits2_pos m + k)) (Z.neg k)) 53)
                            (Z.sub (Z.sub 3 1024) 53)) (Z.neg k)) with 0 by lia.
      simpl. rewrite digits2_pos_iter_xO.
      replace (Z.sub (Z.max (Z.sub (Z.add (Z.pos (digits2_pos m + k)) (Z.neg k)) 53)
                            (Z.sub (Z.sub 3 1024) 53)) (Z.neg k)) with 0 by lia.
      simpl. destruct (Z.leb_spec (Z.neg k) 971); [reflexivity | lia].
    + rewrite iter_xO_value.
      change (Z.neg k) with (- Z.pos k).
      rewrite Z.shiftl_opp_r, Z.shiftr_div_pow2 by lia.
      apply Z.div_mul. apply Z.pow_nonzero; lia.
Qed.

(** Every [int] is a number: a Python integer in the [int] range
    converts to a [double] without rounding, and the cast gives the
    integer back. *)
Lemma numeric_as_int (z : Z) :
  INT_MIN <= z <= INT_MAX -> numeric_as (PyInt z) z.
Proof.
  intros Hz. unfold numeric_as, as_int. simpl. unfold PyLong_AsDouble.
  assert (H53 : Z.abs z < 2 ^ 53).
  { unfold INT_MIN, INT_MAX in Hz.
    assert (2 ^ 31 < 2 ^ 53) by (apply Z.pow_lt_mono_r; lia). lia. }
  destruct z as [| m | m]; [reflexivity | |]; simpl binary_normalize.
  - destruct (binary_round_exact false m H53) as (m' & e' & -> & Hv). simpl.
    unfold static_cast_int. simpl. rewrite Hv.
    apply in_int_range_spec in Hz. now rewrite Hz.
  - destruct (binary_round_exact true m H53) as (m' & e' & -> & Hv). simpl.
    unfold static_cast_int. simpl. rewrite Hv.
    change (- Z.pos m) with (Z.neg m).
    apply in_int_range_spec in Hz. now rewrite Hz.
Qed.

(* ================================================================== *)
(** * Construction of a box *)
(* ================================================================== *)

(** The stated conditions on an item are conditions under which the
    code's own conversion gives the stated integer. *)
Lemma int_valued_numeric (o : py_object) (z : Z) :
  int_valued o z -> numeric_as o z.
Proof.
  intros [z' Hz | d Hd]; [now apply numeric_as_int | now apply numeric_as_float].
Qed.

Lemma int_valued_all (t : list py_object) (zs : list Z) :
  Forall2 int_valued t zs -> Forall2 numeric_as t zs.
Proof.
  induction 1 as [| o z t zs Hz _ IH]; constructor;
    [now apply int_valued_numeric | exact IH].
Qed.

(** C5, as stated, fails: the geometry tuple has 1 item, not 4, and the
    construction ends in [TypeError], not in [std::invalid_argument],
    because the colour's second item is a string and the colour is
    converted before the geometry is looked at. *)
Lemma constructor_type_error_before_arity :
  length [PyInt 1] <> 4%nat /\
  BoundingBox2DWrapper "cup" [PyInt 255; PyStr "green"; PyInt 0] [PyInt 1] =
    Throw (error_already_set PyTypeError) /\
  ~ is_invalid_argument
      (BoundingBox2DWrapper "cup" [PyInt 255; PyStr "green"; PyInt 0] [PyInt 1]).
Proof.
  split; [simpl; lia |]. split; [vm_compute; reflexivity |].
  intros [what Hw]. vm_compute in Hw. discriminate Hw.
Qed.

(** C5, amended.  Construction fails with [std::invalid_argument] when
    the colour tuple does not have exactly 3 items; with a colour of 3
    numbers it fails with [std::invalid_argument] when the geometry
    tuple does not have exactly 4 items; with a colour of 3 numbers and
    a geometry of 4 numbers it succeeds and stores the label, the
    colour as (blue, green, red, 0), and x, y, width and height.  A
    number is a Python integer in the [int] range, stored as it is, or
    a [double] whose integer part an [int] holds, stored cut toward
    zero. *)
Theorem constructor_checks_arity (pLabel : string) (pColor pBox : list py_object) :
  (length pColor <> 3%nat ->
   BoundingBox2DWrapper pLabel pColor pBox =
     Throw (invalid_argument "pColor is not a 3-tuple containing integers")) /\
  (forall r g b : Z,
     Forall2 int_valued pColor [r; g; b] ->
     length pBox <> 4%nat ->
     BoundingBox2DWrapper pLabel pColor pBox =
       Throw (invalid_argument "box geometry is not a tuple containing 4 numerics")) /\
  (forall r g b x y w h : Z,
     Forall2 int_valued pColor [r; g; b] ->
     Forall2 int_valued pBox [x; y; w; h] ->
     BoundingBox2DWrapper pLabel pColor pBox =
       Ok (mkBoundingBox2D pLabel (mkScalar b g r 0) x y w h)).
Proof.
  split; [| split].
  - intros Hlen. unfold BoundingBox2DWrapper.
    destruct (Nat.eqb_spec (length pColor) 3) as [E | E]; [contradiction | reflexivity].
  - intros r g b Hc Hlen. apply int_valued_all in Hc.
    rewrite (constructor_after_color _ _ _ r g b Hc).
    destruct (Nat.eqb_spec (length pBox) 4) as [E | E]; [contradiction | reflexivity].
  - intros r g b x y w h Hc Hb. apply int_valued_all in Hc, Hb.
    now apply constructor_ok.
Qed.

Lemma constructor_checks_arity_witness :
  BoundingBox2DWrapper "cup" [PyInt 255; PyInt 0] [PyInt 1; PyInt 2; PyInt 3; PyInt 4] =
    Throw (invalid_argument "pColor is not a 3-tuple containing integers") /\
  BoundingBox2DWrapper "cup" [PyInt 255; PyFloat Samples.quarter; PyInt 0]
    [PyInt 1; PyInt 2; PyInt 3] =
    Throw (invalid_argument "box geometry is not a tuple containing 4 numerics") /\
  BoundingBox2DWrapper "cup" [PyInt 255; PyFloat Samples.quarter; PyInt 70000]
    [PyInt (-3); PyFloat Samples.minus_2_75; PyInt 0; PyInt 40] =
    Ok (mkBoundingBox2D "cup" (mkScalar 70000 0 255 0) (-3) (-2) 0 40).
Proof.
  assert (Hq : castable Samples.quarter)
    by (split; [reflexivity | vm_compute; split; discriminate]).
  assert (Hm : castable Samples.minus_2_75)
    by (split; [reflexivity | vm_compute; split; discriminate]).
  assert (Hi : forall z, INT_MIN <= z <= INT_MAX -> int_valued (PyInt z) z)
    by (intros z Hz; now constructor).
  split; [| split].
  - apply (proj1 (constructor_checks_arity "cup" [PyInt 255; PyInt 0]
                    [PyInt 1; PyInt 2; PyInt 3; PyInt 4])).
    simpl. lia.
  - apply (proj1 (proj2 (constructor_checks_arity "cup"
                    [PyInt 255; PyFloat Samples.quarter; PyInt 0]
                    [PyInt 1; PyInt 2; PyInt 3])) 255 0 0).
    + constructor; [apply Hi; vm_compute; split; discriminate |].
      constructor; [exact (int_valued_float _ Hq) |].
      constructor; [apply Hi; vm_compute; split; discriminate | constructor].
    + simpl. lia.
  - apply (proj2 (proj2 (constructor_checks_arity "cup"
                    [PyInt 255; PyFloat Samples.quarter; PyInt 70000]
                    [PyInt (-3); PyFloat Samples.minus_2_75; PyInt 0; PyInt 40]))
             255 0 70000 (-3) (-2) 0 40).
    + constructor; [apply Hi; vm_compute; split; discriminate |].
      constructor; [exact (int_valued_float _ Hq) |].
      constructor; [apply Hi; vm_compute; split; discriminate | constructor].
    + constructor; [apply Hi; vm_compute; split; discriminate |].
      constructor; [exact (int_valued_float _ Hm) |].
      constructor; [apply Hi; vm_compute; split; discriminate |].
      constructor; [apply Hi; vm_compute; split; discriminate | constructor].
Defined.

(** C4, as stated, fails: the channel 300 lies outside [0,255], and the
    construction is not refused. *)
Lemma constructor_accepts_channel_300 :
  length Samples.off_scale = 3%nat /\
  In (PyInt 300) Samples.off_scale /\
  ~ in_channel_range 300 /\
  ~ is_invalid_argument
      (BoundingBox2DWrapper "cup" Samples.off_scale
         [PyInt 10; PyInt 20; PyInt 30; PyInt 40]).
Proof.
  split; [reflexivity |]. split; [now left |]. split.
  - unfold in_channel_range. lia.
  - intros [what Hw]. vm_compute in Hw. discriminate Hw.
Qed.

(** C4, amended.  Of the colour, construction checks the number of items
    only: a tuple that does not have exactly 3 items is refused with
    [std::invalid_argument]; 3 channels that are Python integers in the
    [int] range are never checked against [0,255], and with a geometry
    of 4 such integers the construction succeeds and stores each
    channel as given, as (blue, green, red, 0). *)
Theorem constructor_color_range_unchecked (pLabel : string)
    (pColor pBox : list py_object) :
  (length pColor <> 3%nat ->
   is_invalid_argument (BoundingBox2DWrapper pLabel pColor pBox)) /\
  (forall r g b x y w h : Z,
     Forall (fun z => INT_MIN <= z <= INT_MAX) [r; g; b; x; y; w; h] ->
     pColor = [PyInt r; PyInt g; PyInt b] ->
     pBox = [PyInt x; PyInt y; PyInt w; PyInt h] ->
     BoundingBox2DWrapper pLabel pColor pBox =
       Ok (mkBoundingBox2D pLabel (mkScalar b g r 0) x y w h)).
Proof.
  split.
  - intros Hlen. unfold is_invalid_argument, BoundingBox2DWrapper.
    destruct (Nat.eqb_spec (length pColor) 3) as [E | E]; [contradiction |].
    simpl. eauto.
  - intros r g b x y w h Hall -> ->.
    repeat match goal with
           | F : Forall _ (_ :: _) |- _ => apply Forall_cons in F as [? F]
           end.
    apply constructor_ok; repeat constructor; now apply numeric_as_int.
Qed.

Lemma constructor_color_range_unchecked_witness :
  is_invalid_argument
    (BoundingBox2DWrapper "cup" [PyInt 300] [PyInt 10; PyInt 20; PyInt 30; PyInt 40]) /\
  BoundingBox2DWrapper "cup" Samples.off_scale
    [PyInt 10; PyInt 20; PyInt 30; PyInt 40] =
  Ok (mkBoundingBox2D "cup" (mkScalar (-5) 0 300 0) 10 20 30 40).
Proof.
  split.
  - apply (proj1 (constructor_color_range_unchecked "cup" [PyInt 300]
                    [PyInt 10; PyInt 20; PyInt 30; PyInt 40])).
    simpl. lia.
  - apply (proj2 (constructor_color_range_unchecked "cup" Samples.off_scale
                    [PyInt 10; PyInt 20; PyInt 30; PyInt 40])
             300 0 (-5) 10 20 30 40).
    + repeat constructor; vm_compute; discriminate.
    + reflexivity.
    + reflexivity.
Defined.

(** C10, as stated, fails: not every numeric value is accepted.  The
    Python integer 10^400 as x is refused with [OverflowError]. *)
Lemma constructor_refuses_huge_int :
  BoundingBox2DWrapper "cup" Samples.red
    [PyInt MoreSamples.googol4; PyInt 0; PyInt 1; PyInt 1] =
  Throw (error_already_set PyOverflowError).
Proof. vm_compute. reflexivity. Qed.

(** C10, amended.  As geometry, construction takes Python integers in
    the [int] range and [double]s whose integer part an [int] holds, in
    any mix: an integer is stored as it is, a [double] is stored cut
    toward zero.  Sign and size are not looked at beyond that, and there
    are inputs whose box has a negative x, a negative y and a width and
    height that are not positive. *)
Theorem constructor_truncates_geometry :
  (forall (pLabel : string) (pColor pBox : list py_object)
          (r g b x y w h : Z),
     Forall2 int_valued pColor [r; g; b] ->
     Forall2 int_valued pBox [x; y; w; h] ->
     exists box,
       BoundingBox2DWrapper pLabel pColor pBox = Ok box /\
       mX box = x /\ mY box = y /\ mWidth box = w /\ mHeight box = h) /\
  (exists (pColor pBox : list py_object) (box : BoundingBox2D),
     BoundingBox2DWrapper "cup" pColor pBox = Ok box /\
     mX box < 0 /\ mY box < 0 /\ mWidth box <= 0 /\ mHeight box <= 0).
Proof.
  split.
  - intros pLabel pColor pBox r g b x y w h Hc Hb.
    apply int_valued_all in Hc, Hb.
    exists (mkBoundingBox2D pLabel (CV_RGB r g b) x y w h).
    split; [now apply constructor_ok | simpl; tauto].
  - exists Samples.red,
      [PyFloat Samples.minus_1_5; PyInt (-2);
       PyFloat Samples.quarter; PyFloat Samples.minus_4].
    eexists. split; [vm_compute; reflexivity |]. simpl. lia.
Qed.

Lemma constructor_truncates_geometry_witness :
  exists box,
    BoundingBox2DWrapper "cup" Samples.red
      [PyFloat Samples.minus_1_5; PyInt (-2);
       PyFloat Samples.quarter; PyFloat Samples.minus_4] = Ok box /\
    mX box = -1 /\ mY box = -2 /\ mWidth box = 0 /\ mHeight box = -4.
Proof.
  assert (Hi : forall z, INT_MIN <= z <= INT_MAX -> int_valued (PyInt z) z)
    by (intros z Hz; now constructor).
  assert (Hf : forall d, castable d -> int_valued (PyFloat d) (toward_zero d))
    by (intros d Hd; now constructor).
  apply (proj1 constructor_truncates_geometry "cup" Samples.red
           [PyFloat Samples.minus_1_5; PyInt (-2);
            PyFloat Samples.quarter; PyFloat Samples.minus_4]
           255 0 0 (-1) (-2) 0 (-4)).
  - repeat (constructor; [apply Hi; vm_compute; split; discriminate |]).
    constructor.
  - constructor;
      [apply (Hf Samples.minus_1_5); split; [reflexivity | vm_compute; split; discriminate] |].
    constructor; [apply Hi; vm_compute; split; discriminate |].
    constructor;
      [apply (Hf Samples.quarter); split; [reflexivity | vm_compute; split; discriminate] |].
    constructor;
      [apply (Hf Samples.minus_4); split; [reflexivity | vm_compute; split; discriminate] |].
    constructor.
Defined.

(* ================================================================== *)
(** * Fitting a box to an image *)
(* ================================================================== *)

(** C9.  An image size tuple that does not have exactly 2 items makes
    [fitBoxToImageWrapper] throw [std::invalid_argument] with the text
    "image size is not a tuple containing 2 numerics".  This holds for
    every box and whatever the library's [fitBoxToImage] does: the box
    is not looked at and the library is not called. *)
Theorem fit_wrapper_checks_size_arity
    (fitBoxToImage : Size -> Rect -> Z -> outcome Rect)
    (pImageSizeTuple : list py_object) (pBox : BoundingBox2D) (pOffset : Z) :
  length pImageSizeTuple <> 2%nat ->
  fitBoxToImageWrapper fitBoxToImage pImageSizeTuple pBox pOffset =
    Throw (invalid_argument "image size is not a tuple containing 2 numerics").
Proof.
  intros Hlen. unfold fitBoxToImageWrapper.
  destruct (Nat.eqb_spec (length pImageSizeTuple) 2) as [E | E];
    [contradiction | reflexivity].
Qed.

Lemma fit_wrapper_checks_size_arity_witness :
  fitBoxToImageWrapper Lib.fitBoxToImage [PyInt 640] Samples.cup 0 =
    Throw (invalid_argument "image size is not a tuple containing 2 numerics").
Proof.
  apply (fit_wrapper_checks_size_arity Lib.fitBoxToImage [PyInt 640] Samples.cup 0).
  simpl. lia.
Defined.

(** A box with width and height that lies inside the image is what the
    fit with offset 0 gives back. *)
Lemma fitBoxToImage_inside (W H : Z) (b : BoundingBox2D) :
  0 < mWidth b -> 0 < mHeight b -> inside_image W H b ->
  Lib.fitBoxToImage (mkSize W H) (getCvRect b) 0 = Ok (getCvRect b).
Proof.
  intros Hw Hh (Hx & Hy & Hr & Hb).
  unfold Lib.fitBoxToImage, getCvRect. simpl.
  rewrite !Z.sub_0_r, !Z.add_0_r.
  rewrite (Z.max_r 0 (mX b)), (Z.max_r 0 (mY b)) by assumption.
  rewrite (Z.min_r W), (Z.min_r H) by assumption.
  replace (mX b + mWidth b - mX b) with (mWidth b) by lia.
  replace (mY b + mHeight b - mY b) with (mHeight b) by lia.
  destruct (Z.leb_spec (mWidth b) 0); [lia |].
  destruct (Z.leb_spec (mHeight b) 0); [lia |].
  reflexivity.
Qed.

(** The spec's worked case: in a 100x100 image the box (90,90,20,20)
    is cut to (90,90,10,10). *)
Example fitBoxToImage_corner :
  Lib.fitBoxToImage (mkSize 100 100) (mkRect 90 90 20 20) 0 =
    Ok (mkRect 90 90 10 10).
Proof. reflexivity. Qed.

Lemma updateBox_getCvRect (b : BoundingBox2D) : updateBox b (getCvRect b) = b.
Proof. now destruct b. Qed.

(** C7.  A box of positive width and height that lies inside the image
    comes back from [fitBoxToImageWrapper] with offset 0 as it went in:
    the same x, y, width and height, the same label and colour. *)
Theorem fit_inside_keeps_box (pImageSizeTuple : list py_object) (W H : Z)
    (pBox : BoundingBox2D) :
  Forall2 numeric_as pImageSizeTuple [W; H] ->
  0 < mWidth pBox -> 0 < mHeight pBox ->
  inside_image W H pBox ->
  fitBoxToImageWrapper Lib.fitBoxToImage pImageSizeTuple pBox 0 = Ok pBox.
Proof.
  intros Hs Hw Hh Hin.
  inversion Hs as [| o0 W' t0 l0 H0 Hs0]; subst.
  inversion Hs0 as [| o1 H' t1 l1 H1 Hs1]; subst.
  inversion Hs1; subst.
  unfold fitBoxToImageWrapper. simpl length. simpl negb. cbv iota.
  rewrite (item_as_int_lookup _ 0 o0), (item_as_int_lookup _ 1 o1) by reflexivity.
  unfold numeric_as in H0, H1. rewrite H0, H1. simpl.
  rewrite (fitBoxToImage_inside W H pBox Hw Hh Hin). simpl.
  now rewrite updateBox_getCvRect.
Qed.

Lemma fit_inside_keeps_box_witness :
  fitBoxToImageWrapper Lib.fitBoxToImage [PyInt 640; PyInt 480] Samples.cup 0 =
    Ok Samples.cup.
Proof.
  apply (fit_inside_keeps_box [PyInt 640; PyInt 480] 640 480 Samples.cup).
  - repeat constructor.
  - simpl. lia.
  - simpl. lia.
  - unfold inside_image. simpl. lia.
Defined.

(* ================================================================== *)
(** * Clouds that are not organized *)
(* ================================================================== *)

(** C6.  [cloudMsgToImageMsgWrapper] throws [std::invalid_argument] for
    every decoded cloud of height 1 or less; for every cloud of greater
    height it goes on to the PCL conversion, and what it returns is the
    image message that conversion makes. *)
Theorem cloud_to_image_checks_height
    (from_python : string -> outcome PointCloud2)
    (to_python_image : Image -> string)
    (pcl_toROSMsg : PointCloud2 -> outcome Image)
    (pSerialCloud : string) (cloudMsg : PointCloud2) :
  from_python pSerialCloud = Ok cloudMsg ->
  ((height cloudMsg <= 1)%N ->
   cloudMsgToImageMsgWrapper from_python to_python_image pcl_toROSMsg pSerialCloud =
     Throw (invalid_argument "Input point cloud is not organized!")) /\
  ((1 < height cloudMsg)%N ->
   cloudMsgToImageMsgWrapper from_python to_python_image pcl_toROSMsg pSerialCloud =
     let* imageMsg := pcl_toROSMsg cloudMsg in Ok (to_python_image imageMsg)).
Proof.
  intros Hd. unfold cloudMsgToImageMsgWrapper. rewrite Hd. simpl.
  split; intros Hh; destruct (N.leb_spec (height cloudMsg) 1); try lia; reflexivity.
Qed.

Lemma cloud_to_image_checks_height_witness :
  cloudMsgToImageMsgWrapper Samples.decode Samples.encode_image Samples.to_image "scan" =
    Throw (invalid_argument "Input point cloud is not organized!") /\
  cloudMsgToImageMsgWrapper Samples.decode Samples.encode_image Samples.to_image "grid" =
    Ok "image".
Proof.
  split.
  - apply (proj1 (cloud_to_image_checks_height Samples.decode Samples.encode_image
                    Samples.to_image "scan" Samples.scan eq_refl)).
    simpl. lia.
  - apply (proj2 (cloud_to_image_checks_height Samples.decode Samples.encode_image
                    Samples.to_image "grid" Samples.grid eq_refl)).
    simpl. lia.
Defined.

(** C2.  [cropOrganizedCloudMsgWrapper] fails with
    [std::invalid_argument], "not organized", for every decoded cloud of
    height 1 or less and every box; no cropped cloud comes back. *)
Theorem crop_wrapper_refuses_unorganized
    (from_python : string -> outcome PointCloud2)
    (to_python : PointCloud2 -> string)
    (pSerialCloud : string) (cloudMsg : PointCloud2) (pBox : BoundingBox2D) :
  from_python pSerialCloud = Ok cloudMsg ->
  (height cloudMsg <= 1)%N ->
  cropOrganizedCloudMsgWrapper from_python to_python Lib.cropOrganizedCloudMsg
    pSerialCloud pBox = Throw (invalid_argument "not organized").
Proof.
  intros Hd Hh. unfold cropOrganizedCloudMsgWrapper. rewrite Hd. simpl.
  unfold Lib.cropOrganizedCloudMsg.
  destruct (N.leb_spec (height cloudMsg) 1); [reflexivity | lia].
Qed.

Lemma crop_wrapper_refuses_unorganized_witness :
  cropOrganizedCloudMsgWrapper Samples.decode Samples.encode
    Lib.cropOrganizedCloudMsg "scan" Samples.cup =
  Throw (invalid_argument "not organized").
Proof.
  apply (crop_wrapper_refuses_unorganized Samples.decode Samples.encode
           "scan" Samples.scan Samples.cup eq_refl).
  simpl. lia.
Defined.

(* ================================================================== *)
(** * Transforming a cloud *)
(* ================================================================== *)

(** C1, as stated, fails: for a 3x3 matrix the wrapper throws, but what
    it throws is a [std::runtime_error], not a [std::invalid_argument]. *)
Lemma transform_3x3_is_runtime_error :
  Samples.store3x3 !! 1%positive = Some Samples.matrix3x3 /\
  nd_rows Samples.matrix3x3 = 3 /\ nd_cols Samples.matrix3x3 = 3 /\
  ~ is_invalid_argument
      (fst (transformPointCloudWrapper Samples.decode Samples.encode
              Samples.as_matrix Samples.to_eigen Samples.keep_cloud
              "grid" 1%positive Samples.store3x3)).
Proof.
  split; [reflexivity |]. split; [reflexivity |]. split; [reflexivity |].
  intros [what Hw]. vm_compute in Hw. discriminate Hw.
Qed.

(** C1, amended.  For every matrix that is not exactly 4x4,
    [transformPointCloudWrapper] throws a [std::runtime_error] with the
    text "transformation is not a 4x4 matrix"; the cloud is not decoded
    and no transformed cloud is produced. *)
Theorem transform_rejects_non_4x4 {elem : Type}
    (from_python : string -> outcome PointCloud2)
    (to_python : PointCloud2 -> string)
    (fromNDArrayToMat :
       positive -> gmap positive (ndarray elem) ->
       outcome Mat * gmap positive (ndarray elem))
    (cv2eigen :
       Mat -> gmap positive (ndarray elem) ->
       outcome Matrix4f * gmap positive (ndarray elem))
    (pcl_ros_transformPointCloud : Matrix4f -> PointCloud2 -> outcome PointCloud2)
    (pSerialCloud : string) (pTfMatrix : positive)
    (h h1 : gmap positive (ndarray elem)) (tfMatrix : Mat) :
  fromNDArrayToMat pTfMatrix h = (Ok tfMatrix, h1) ->
  rows tfMatrix <> 4 \/ cols tfMatrix <> 4 ->
  transformPointCloudWrapper from_python to_python fromNDArrayToMat cv2eigen
    pcl_ros_transformPointCloud pSerialCloud pTfMatrix h =
  (Throw (runtime_error "transformation is not a 4x4 matrix"), h1).
Proof.
  intros Hm Hshape. unfold transformPointCloudWrapper, mbind. rewrite Hm.
  destruct (Z.eqb_spec (rows tfMatrix) 4) as [Er | Er];
    destruct (Z.eqb_spec (cols tfMatrix) 4) as [Ec | Ec];
    simpl; try reflexivity.
  destruct Hshape; contradiction.
Qed.

Lemma transform_rejects_non_4x4_witness :
  fst (transformPointCloudWrapper Samples.decode Samples.encode
         Samples.as_matrix Samples.to_eigen Samples.keep_cloud
         "grid" 1%positive Samples.store3x3) =
  Throw (runtime_error "transformation is not a 4x4 matrix").
Proof.
  rewrite (transform_rejects_non_4x4 Samples.decode Samples.encode
             Samples.as_matrix Samples.to_eigen Samples.keep_cloud
             "grid" 1%positive Samples.store3x3
             Samples.store3x3 (mkMat 3 3 1%positive)).
  - reflexivity.
  - vm_compute. reflexivity.
  - left. simpl. lia.
Defined.

(* ================================================================== *)
(** * Drawing boxes *)
(* ================================================================== *)

Lemma extract_boxes_boxes (boxes : list BoundingBox2D) :
  extract_boxes (map PyBox boxes) = Ok boxes.
Proof.
  induction boxes as [| b boxes IH]; simpl; [reflexivity |].
  now rewrite IH.
Qed.

(* ================================================================== *)
(** * Cropping an organized cloud *)
(* ================================================================== *)


Section Grid.

Variable pts : list Point.
Variables W x w : nat.
Hypothesis Hcols : (x + w <= W)%nat.
Hypothesis Hw : (0 < w)%nat.




End Grid.




(* ================================================================== *)
(** * More about construction *)
(* ================================================================== *)

Lemma obind_ok {A B : Type} (c : outcome A) (k : A -> outcome B) (b : B) :
  obind c k = Ok b -> exists a, c = Ok a /\ k a = Ok b.
Proof. destruct c as [a | e |]; simpl; intros H; try discriminate. eauto. Qed.

Lemma item_as_int_ok (t : list py_object) (i : nat) (z : Z) :
  item_as_int t i = Ok z -> exists o, t !! i = Some o /\ numeric_as o z.
Proof.
  unfold item_as_int, py_getitem. destruct (t !! i) as [o |]; simpl.
  - intros H. exists o. split; [reflexivity | exact H].
  - discriminate.
Qed.

Lemma static_cast_int_range (d : double) (z : Z) :
  static_cast_int d = Ok z -> SFtrunc d = Some z /\ INT_MIN <= z <= INT_MAX.
Proof.
  unfold static_cast_int. destruct (SFtrunc d) as [v |]; [| discriminate].
  destruct (in_int_range v) eqn:Hr; [| discriminate].
  intros H. injection H as <-. split; [reflexivity |].
  now apply in_int_range_spec.
Qed.

Lemma numeric_as_range (o : py_object) (z : Z) :
  numeric_as o z -> INT_MIN <= z <= INT_MAX.
Proof.
  unfold numeric_as, as_int. intros H.
  apply obind_ok in H as (d & _ & Hc).
  now apply static_cast_int_range in Hc.
Qed.

Lemma length_3 {A : Type} (l : list A) :
  length l = 3%nat -> exists a b c, l = [a; b; c].
Proof. destruct l as [| a [| b [| c [| ? ?]]]]; try discriminate. eauto. Qed.

Lemma length_4 {A : Type} (l : list A) :
  length l = 4%nat -> exists a b c d, l = [a; b; c; d].
Proof.
  destruct l as [| a [| b [| c [| d [| ? ?]]]]]; try discriminate.
  intros _. now exists a, b, c, d.
Qed.

Lemma constructor_ok_inv (pLabel : string) (pColor pBox : list py_object)
    (box : BoundingBox2D) :
  BoundingBox2DWrapper pLabel pColor pBox = Ok box ->
  exists r g b x y w h : Z,
    Forall2 numeric_as pColor [r; g; b] /\
    Forall2 numeric_as pBox [x; y; w; h] /\
    box = mkBoundingBox2D pLabel (mkScalar b g r 0) x y w h.
Proof.
  unfold BoundingBox2DWrapper.
  destruct (Nat.eqb_spec (length pColor) 3) as [Hc | Hc]; [| discriminate].
  simpl negb. cbv iota. intros H.
  apply obind_ok in H as (r & Hr & H).
  apply obind_ok in H as (g & Hg & H).
  apply obind_ok in H as (b & Hb & H).
  destruct (Nat.eqb_spec (length pBox) 4) as [Hg4 | Hg4]; [| discriminate].
  simpl negb in H. cbv iota in H.
  apply obind_ok in H as (x & Hx & H).
  apply obind_ok in H as (y & Hy & H).
  apply obind_ok in H as (w & Hw & H).
  apply obind_ok in H as (h & Hh & H).
  injection H as <-.
  destruct (length_3 _ Hc) as (c0 & c1 & c2 & ->).
  destruct (length_4 _ Hg4) as (g0 & g1 & g2 & g3 & ->).
  apply item_as_int_ok in Hr as (? & [= <-] & Hr).
  apply item_as_int_ok in Hg as (? & [= <-] & Hg).
  apply item_as_int_ok in Hb as (? & [= <-] & Hb).
  apply item_as_int_ok in Hx as (? & [= <-] & Hx).
  apply item_as_int_ok in Hy as (? & [= <-] & Hy).
  apply item_as_int_ok in Hw as (? & [= <-] & Hw).
  apply item_as_int_ok in Hh as (? & [= <-] & Hh).
  exists r, g, b, x, y, w, h.
  split; [repeat constructor; assumption |].
  split; [repeat constructor; assumption | reflexivity].
Qed.

(** X2.  Integers go through unchanged: built from Python integers in
    the [int] range, the box holds exactly those integers.  The detour
    through [double] rounds nothing. *)
Theorem constructor_keeps_ints (pLabel : string) (r g b x y w h : Z) :
  Forall (fun z => INT_MIN <= z <= INT_MAX) [r; g; b; x; y; w; h] ->
  BoundingBox2DWrapper pLabel [PyInt r; PyInt g; PyInt b]
    [PyInt x; PyInt y; PyInt w; PyInt h] =
  Ok (mkBoundingBox2D pLabel (mkScalar b g r 0) x y w h).
Proof.
  intros Hall.
  repeat match goal with
         | H : Forall _ (_ :: _) |- _ => inversion H; subst; clear H
         end.
  apply constructor_ok; repeat constructor; now apply numeric_as_int.
Qed.

Lemma constructor_keeps_ints_witness :
  BoundingBox2DWrapper "cup" [PyInt 255; PyInt (-1); PyInt 70000]
    [PyInt (-3); PyInt 2147483647; PyInt 0; PyInt (-2147483648)] =
  Ok (mkBoundingBox2D "cup" (mkScalar 70000 (-1) 255 0)
        (-3) 2147483647 0 (-2147483648)).
Proof.
  apply (constructor_keeps_ints "cup" 255 (-1) 70000 (-3) 2147483647 0 (-2147483648)).
  repeat constructor; vm_compute; discriminate.
Defined.

Lemma as_int_non_number (o : py_object) :
  non_number o -> as_int o = Throw (error_already_set PyTypeError).
Proof. destruct o; simpl; intros H; try contradiction; reflexivity. Qed.

(** X4.  A colour of 3 items of which at least one is not a number (a
    string, [None], a box) and the others are Python integers in the
    [int] range or [double]s whose integer part an [int] holds raises
    [TypeError], not [std::invalid_argument], whatever the geometry
    tuple is. *)
Theorem constructor_color_type_error (pLabel : string)
    (pColor pBox : list py_object) :
  length pColor = 3%nat ->
  Forall (fun o => (exists z, int_valued o z) \/ non_number o) pColor ->
  Exists non_number pColor ->
  BoundingBox2DWrapper pLabel pColor pBox = Throw (error_already_set PyTypeError).
Proof.
  intros Hlen Hall Hex.
  destruct (length_3 _ Hlen) as (c0 & c1 & c2 & ->).
  unfold BoundingBox2DWrapper. simpl length. simpl negb. cbv iota.
  rewrite (item_as_int_lookup _ 0 c0), (item_as_int_lookup _ 1 c1),
    (item_as_int_lookup _ 2 c2) by reflexivity.
  apply Forall_cons in Hall as [H0 Hall].
  apply Forall_cons in Hall as [H1 Hall].
  apply Forall_cons in Hall as [H2 _].
  destruct H0 as [[z0 H0] | H0];
    [apply int_valued_numeric in H0; unfold numeric_as in H0; rewrite H0 |
     now rewrite (as_int_non_number _ H0)].
  destruct H1 as [[z1 H1] | H1];
    [apply int_valued_numeric in H1; unfold numeric_as in H1; rewrite H1 |
     now rewrite (as_int_non_number _ H1)].
  destruct H2 as [[z2 H2] | H2];
    [apply int_valued_numeric in H2 | now rewrite (as_int_non_number _ H2)].
  exfalso.
  assert (Hno : forall o z, as_int o = Ok z -> ~ non_number o).
  { intros o z Hn Hnn. rewrite (as_int_non_number _ Hnn) in Hn. discriminate. }
  inversion Hex as [? ? E | ? ? Hex0]; subst; [now apply (Hno c0 z0) |].
  inversion Hex0 as [? ? E | ? ? Hex1]; subst; [now apply (Hno c1 z1) |].
  inversion Hex1 as [? ? E | ? ? Hex2]; subst; [now apply (Hno c2 z2) |].
  inversion Hex2.
Qed.

Lemma constructor_color_type_error_witness :
  BoundingBox2DWrapper "cup" [PyInt 255; PyStr "green"; PyInt 0] [PyInt 1] =
    Throw (error_already_set PyTypeError).
Proof.
  apply (constructor_color_type_error "cup" [PyInt 255; PyStr "green"; PyInt 0]
           [PyInt 1]).
  - reflexivity.
  - constructor; [| constructor; [| constructor; [| constructor]]].
    + left. exists 255. constructor. vm_compute. split; discriminate.
    + right. exact I.
    + left. exists 0. constructor. vm_compute. split; discriminate.
  - right. left. exact I.
Defined.

(** X5.  The four geometry items are converted in order, x first.  With
    a colour of 3 numbers and a geometry of 4 items, the first item
    whose conversion raises an exception, after items that are Python
    integers in the [int] range or [double]s whose integer part an
    [int] holds, ends the construction with that exception, whatever
    the items after it are. *)
Theorem constructor_geometry_first_failure (pLabel : string)
    (pColor pBox pre post : list py_object) (o : py_object) (r g b : Z)
    (e : exception) :
  Forall2 int_valued pColor [r; g; b] ->
  pBox = (pre ++ o :: post)%list ->
  length pBox = 4%nat ->
  Forall (fun p => exists z, int_valued p z) pre ->
  as_int o = Throw e ->
  BoundingBox2DWrapper pLabel pColor pBox = Throw e.
Proof.
  intros Hc -> Hlen Hpre Hbad. apply int_valued_all in Hc.
  rewrite (constructor_after_color _ _ _ r g b Hc). rewrite Hlen. simpl negb. cbv iota.
  assert (Hnum : forall p, (exists z, int_valued p z) -> exists z, as_int p = Ok z).
  { intros p [z Hz]. exists z. now apply int_valued_numeric. }
  destruct pre as [| p0 [| p1 [| p2 [| p3 pre]]]].
  - simpl app. rewrite (item_as_int_lookup _ 0 o) by reflexivity.
    now rewrite Hbad.
  - apply Forall_cons in Hpre as [H0 _]. apply Hnum in H0 as [z0 H0]. simpl app.
    rewrite (item_as_int_lookup _ 0 p0), (item_as_int_lookup _ 1 o) by reflexivity.
    now rewrite H0, Hbad.
  - apply Forall_cons in Hpre as [H0 Hpre]. apply Hnum in H0 as [z0 H0].
    apply Forall_cons in Hpre as [H1 _]. apply Hnum in H1 as [z1 H1]. simpl app.
    rewrite (item_as_int_lookup _ 0 p0), (item_as_int_lookup _ 1 p1),
      (item_as_int_lookup _ 2 o) by reflexivity.
    now rewrite H0, H1, Hbad.
  - apply Forall_cons in Hpre as [H0 Hpre]. apply Hnum in H0 as [z0 H0].
    apply Forall_cons in Hpre as [H1 Hpre]. apply Hnum in H1 as [z1 H1].
    apply Forall_cons in Hpre as [H2 _]. apply Hnum in H2 as [z2 H2]. simpl app.
    rewrite (item_as_int_lookup _ 0 p0), (item_as_int_lookup _ 1 p1),
      (item_as_int_lookup _ 2 p2), (item_as_int_lookup _ 3 o) by reflexivity.
    now rewrite H0, H1, H2, Hbad.
  - exfalso. rewrite length_app in Hlen. simpl in Hlen. lia.
Qed.

Lemma constructor_geometry_first_failure_witness :
  BoundingBox2DWrapper "cup" Samples.red
    [PyInt 1; PyStr "two"; PyInt MoreSamples.googol4; PyInt 4] =
    Throw (error_already_set PyTypeError).
Proof.
  apply (constructor_geometry_first_failure "cup" Samples.red
           [PyInt 1; PyStr "two"; PyInt MoreSamples.googol4; PyInt 4]
           [PyInt 1] [PyInt MoreSamples.googol4; PyInt 4] (PyStr "two") 255 0 0).
  - repeat (constructor; [constructor; vm_compute; split; discriminate |]).
    constructor.
  - reflexivity.
  - reflexivity.
  - constructor; [| constructor]. exists 1. constructor. vm_compute. split; discriminate.
  - reflexivity.
Defined.

(** X6.  The cast [static_cast<int>] never moves a value away from
    zero and never drops a whole unit: for the exact value [n / d] of
    the [double] and the [int] [z] it is cast to, [|z| <= |n / d| <
    |z| + 1], [z] has the sign of the value or is 0, and [z] lies in
    the [int] range. *)
Theorem static_cast_int_bounds (d : double) (z : Z) :
  static_cast_int d = Ok z ->
  INT_MIN <= z <= INT_MAX /\
  Z.abs z * SFden d <= Z.abs (SFnum d) < (Z.abs z + 1) * SFden d /\
  0 <= z * SFnum d.
Proof.
  intros H. apply static_cast_int_range in H as [Ht Hr].
  split; [exact Hr |].
  assert (Hf : SFfinite d = true).
  { destruct d; simpl in *; try reflexivity; discriminate. }
  rewrite (SFtrunc_toward_zero d Hf) in Ht. injection Ht as <-.
  unfold toward_zero.
  assert (Hden : 0 < SFden d).
  { destruct d; simpl; first [lia | apply Z.pow_pos_nonneg; lia]. }
  set (n := SFnum d) in *. set (m := SFden d) in *.
  pose proof (Z.quot_rem' n m) as Hqr.
  pose proof (Z.rem_bound_abs n m ltac:(lia)) as Hb.
  pose proof (Z.rem_sign_mul n m ltac:(lia)) as Hs.
  destruct (Z.le_gt_cases 0 n) as [Hn | Hn].
  - pose proof (Z.quot_pos n m Hn Hden) as Hq.
    pose proof (Z.rem_nonneg n m ltac:(lia) Hn) as Hr0.
    rewrite (Z.abs_eq (n ÷ m)), (Z.abs_eq n) by assumption.
    split; [nia | nia].
  - assert (Hq : n ÷ m <= 0).
    { rewrite <- (Z.opp_involutive n), Z.quot_opp_l by lia.
      pose proof (Z.quot_pos (- n) m ltac:(lia) Hden). lia. }
    assert (Hr0 : Z.rem n m <= 0).
    { apply Z.rem_nonpos; lia. }
    rewrite (Z.abs_neq (n ÷ m)), (Z.abs_neq n) by lia.
    split; [nia | nia].
Qed.

Lemma static_cast_int_bounds_witness :
  INT_MIN <= -2 <= INT_MAX /\
  Z.abs (-2) * SFden Samples.minus_2_75 <= Z.abs (SFnum Samples.minus_2_75)
    < (Z.abs (-2) + 1) * SFden Samples.minus_2_75 /\
  0 <= -2 * SFnum Samples.minus_2_75.
Proof.
  apply (static_cast_int_bounds Samples.minus_2_75 (-2)). reflexivity.
Defined.

(* ================================================================== *)
(** * More about the wrappers *)
(* ================================================================== *)


Lemma extract_boxes_ok (l : list py_object) (bs : list BoundingBox2D) :
  extract_boxes l = Ok bs -> l = map PyBox bs.
Proof.
  revert bs. induction l as [| o l IH]; simpl; intros bs H.
  - now injection H as <-.
  - apply obind_ok in H as (b & Hb & H).
    apply obind_ok in H as (bs' & Hbs & H).
    injection H as <-.
    destruct o; simpl in Hb; try discriminate. injection Hb as ->.
    simpl. f_equal. now apply IH.
Qed.

Lemma extract_boxes_non_box (l : list py_object) :
  Exists (fun o => ~ is_box o) l ->
  extract_boxes l = Throw (error_already_set PyTypeError).
Proof.
  induction l as [| o l IH]; intros Hex; [inversion Hex |].
  simpl. destruct o as [d | z | s | | b]; simpl; try reflexivity.
  inversion Hex as [? ? Hno | ? ? Hex']; subst.
  - exfalso. apply Hno. now exists b.
  - now rewrite (IH Hex').
Qed.

(** X7.  The loop that fills the vector of boxes succeeds exactly on a
    list whose items are all boxes, and the vector then holds those
    boxes in list order, one per item; a list with any other item ends
    the loop with [TypeError]. *)
Theorem extract_boxes_spec (l : list py_object) :
  (forall bs, extract_boxes l = Ok bs <-> l = map PyBox bs) /\
  (Exists (fun o => ~ is_box o) l ->
   extract_boxes l = Throw (error_already_set PyTypeError)).
Proof.
  split.
  - intros bs. split; [apply extract_boxes_ok |].
    intros ->. apply extract_boxes_boxes.
  - apply extract_boxes_non_box.
Qed.

Lemma extract_boxes_spec_witness :
  extract_boxes [PyBox Samples.cup; PyBox Samples.blue_cup] =
    Ok [Samples.cup; Samples.blue_cup] /\
  extract_boxes [PyBox Samples.cup; PyNone] = Throw (error_already_set PyTypeError).
Proof.
  split.
  - apply (proj1 (extract_boxes_spec [PyBox Samples.cup; PyBox Samples.blue_cup])).
    reflexivity.
  - apply (proj2 (extract_boxes_spec [PyBox Samples.cup; PyNone])).
    right. left. intros [b Hb]. discriminate Hb.
Defined.

(** X8.  Drawing is all or nothing: when one item of the list is not a
    box, [drawLabeledBoxesWrapper] raises [TypeError] before any box is
    drawn.  The library's drawing and the converter back to Python are
    not run, whatever they are; the store is as the first converter
    left it. *)
Theorem draw_wrapper_all_or_nothing {elem : Type}
    (fromNDArrayToMat :
       positive -> gmap positive (ndarray elem) ->
       outcome Mat * gmap positive (ndarray elem))
    (fromMatToNDArray :
       Mat -> gmap positive (ndarray elem) ->
       outcome positive * gmap positive (ndarray elem))
    (drawLabeledBoxes :
       Mat -> list BoundingBox2D -> Z -> double ->
       gmap positive (ndarray elem) -> outcome unit * gmap positive (ndarray elem))
    (pNdarrayImage : positive) (pBoxList : list py_object)
    (pThickness : Z) (pFontScale : double)
    (h h1 : gmap positive (ndarray elem)) (image : Mat) :
  fromNDArrayToMat pNdarrayImage h = (Ok image, h1) ->
  Exists (fun o => ~ is_box o) pBoxList ->
  drawLabeledBoxesWrapper fromNDArrayToMat fromMatToNDArray drawLabeledBoxes
    pNdarrayImage pBoxList pThickness pFontScale h =
  (Throw (error_already_set PyTypeError), h1).
Proof.
  intros Hconv Hex. unfold drawLabeledBoxesWrapper, mbind at 1. rewrite Hconv.
  unfold mbind at 1, lift.
  now rewrite (extract_boxes_non_box pBoxList Hex).
Qed.

Lemma draw_wrapper_all_or_nothing_witness :
  drawLabeledBoxesWrapper Samples.as_matrix Samples.as_array Samples.no_draw
    1%positive [PyBox Samples.blue_cup; PyStr "cup"] 2 (S754_zero false)
    Samples.store_grey =
  (Throw (error_already_set PyTypeError), Samples.store_grey).
Proof.
  apply (draw_wrapper_all_or_nothing Samples.as_matrix Samples.as_array
           Samples.no_draw
           1%positive [PyBox Samples.blue_cup; PyStr "cup"] 2 (S754_zero false)
           Samples.store_grey _ (mkMat 2 2 1%positive)).
  - reflexivity.
  - right. left. intros [b Hb]. discriminate Hb.
Defined.

(** X9.  [fitBoxToImageWrapper] reads the image size through the same
    cast as the constructor: a size tuple of two numbers acts as the
    pair of integers the numbers are cut to, for every library, box and
    offset.  A width of 640.5 is a width of 640. *)
Theorem fit_wrapper_truncates_size
    (fitBoxToImage : Size -> Rect -> Z -> outcome Rect)
    (pImageSizeTuple : list py_object) (W H : Z)
    (pBox : BoundingBox2D) (pOffset : Z) :
  Forall2 numeric_as pImageSizeTuple [W; H] ->
  fitBoxToImageWrapper fitBoxToImage pImageSizeTuple pBox pOffset =
  fitBoxToImageWrapper fitBoxToImage [PyInt W; PyInt H] pBox pOffset.
Proof.
  intros Hs.
  inversion Hs as [| o0 W' t0 l0 H0 Hs0]; subst.
  inversion Hs0 as [| o1 H' t1 l1 H1 Hs1]; subst.
  inversion Hs1; subst.
  pose proof (numeric_as_int W (numeric_as_range _ _ H0)) as HW.
  pose proof (numeric_as_int H (numeric_as_range _ _ H1)) as HH.
  unfold fitBoxToImageWrapper. simpl length. simpl negb. cbv iota.
  rewrite (item_as_int_lookup [o0; o1] 0 o0), (item_as_int_lookup [o0; o1] 1 o1),
    (item_as_int_lookup [PyInt W; PyInt H] 0 (PyInt W)),
    (item_as_int_lookup [PyInt W; PyInt H] 1 (PyInt H)) by reflexivity.
  unfold numeric_as in H0, H1, HW, HH. now rewrite H0, H1, HW, HH.
Qed.

Lemma fit_wrapper_truncates_size_witness :
  fitBoxToImageWrapper Lib.fitBoxToImage
    [PyFloat MoreSamples.d640_5; PyFloat MoreSamples.d480_25] Samples.cup 0 =
  fitBoxToImageWrapper Lib.fitBoxToImage [PyInt 640; PyInt 480] Samples.cup 0.
Proof.
  apply (fit_wrapper_truncates_size Lib.fitBoxToImage
           [PyFloat MoreSamples.d640_5; PyFloat MoreSamples.d480_25] 640 480
           Samples.cup 0).
  repeat constructor.
Defined.

(** X10.  An image message comes out of [cloudMsgToImageMsgWrapper]
    only for a cloud that decoded, has a height above 1 and went
    through the PCL conversion; the message is that conversion's
    image, serialized.  No unorganized cloud ever yields an image. *)
Theorem cloud_to_image_ok_inversion
    (from_python : string -> outcome PointCloud2)
    (to_python_image : Image -> string)
    (pcl_toROSMsg : PointCloud2 -> outcome Image)
    (pSerialCloud out : string) :
  cloudMsgToImageMsgWrapper from_python to_python_image pcl_toROSMsg pSerialCloud =
    Ok out ->
  exists cloudMsg imageMsg,
    from_python pSerialCloud = Ok cloudMsg /\
    (1 < height cloudMsg)%N /\
    pcl_toROSMsg cloudMsg = Ok imageMsg /\
    out = to_python_image imageMsg.
Proof.
  unfold cloudMsgToImageMsgWrapper. intros H.
  apply obind_ok in H as (cloudMsg & Hd & H).
  destruct (N.leb_spec (height cloudMsg) 1) as [Hle | Hgt]; [discriminate |].
  apply obind_ok in H as (imageMsg & Hi & H). injection H as <-.
  now exists cloudMsg, imageMsg.
Qed.

Lemma cloud_to_image_ok_inversion_witness :
  exists cloudMsg imageMsg,
    Samples.decode "grid" = Ok cloudMsg /\
    (1 < height cloudMsg)%N /\
    Samples.to_image cloudMsg = Ok imageMsg /\
    "image" = Samples.encode_image imageMsg.
Proof.
  apply (cloud_to_image_ok_inversion Samples.decode Samples.encode_image
           Samples.to_image "grid" "image").
  reflexivity.
Defined.





(* ================================================================== *)
(** * The legacy crops *)
(* ================================================================== *)

Section LegacyLoops.

Variable PyVertex : Type.
Variable array_to_python : spec_float * spec_float -> outcome PyVertex.

Lemma append_vertices_ok (vs : list Point2f) (l : list PyVertex) :
  append_vertices PyVertex array_to_python vs = Ok l ->
  Forall2 (vertex_object array_to_python) l vs.
Proof.
  revert l. induction vs as [| v vs IH]; simpl; intros l H.
  - injection H as <-. constructor.
  - apply obind_ok in H as (o & Ho & H).
    apply obind_ok in H as (l' & Hl & H). injection H as <-.
    constructor; [exact Ho | now apply IH].
Qed.

Lemma append_boxes_ok (vv : list (list Point2f)) (ll : list (list PyVertex)) :
  append_boxes PyVertex array_to_python vv = Ok ll ->
  Forall2 (Forall2 (vertex_object array_to_python)) ll vv.
Proof.
  revert ll. induction vv as [| vs vv IH]; simpl; intros ll H.
  - injection H as <-. constructor.
  - apply obind_ok in H as (l & Hl & H).
    apply obind_ok in H as (ll' & Hll & H). injection H as <-.
    constructor; [now apply append_vertices_ok | now apply IH].
Qed.

End LegacyLoops.

Lemma Forall2_lengths {A B : Type} (R : A -> B -> Prop)
    (ll : list (list A)) (vv : list (list B)) :
  Forall2 (Forall2 R) ll vv -> map length ll = map length vv.
Proof.
  induction 1 as [| l v ll vv Hlv _ IH]; simpl; [reflexivity |].
  f_equal; [eapply Forall2_length; eassumption | exact IH].
Qed.

(** X13.  When [getCropsAndBoundingBoxes] returns, its second result
    has one list per box of the cropper's vertex vector, in the same
    order, each with one object per vertex of that box, in the same
    order, made from the vertex's x and y in that order; the first
    result is the cropper's image list, serialized.  A vertex that does
    not convert makes the whole call fail: no shorter list comes back. *)
Theorem crops_and_boxes_shape
    (CameraInfo BoundingBoxList ImageList ImageBoundingBox_t PyVertex : Type)
    (from_python_image : string -> outcome Image)
    (from_python_camera_info : string -> outcome CameraInfo)
    (from_python_box_list : string -> outcome BoundingBoxList)
    (to_python_image_list : ImageList -> string)
    (ImageBoundingBox :
       Image -> CameraInfo -> BoundingBoxList -> outcome ImageBoundingBox_t)
    (cropped_image_list : ImageBoundingBox_t -> ImageList)
    (box_vertices_vector : ImageBoundingBox_t -> list (list Point2f))
    (array_to_python : spec_float * spec_float -> outcome PyVertex)
    (pSerialImageMsg pSerialCameraInfo pSerialBoundingBoxList : string)
    (serialImageList : string) (boxVerticesList : list (list PyVertex)) :
  getCropsAndBoundingBoxes CameraInfo BoundingBoxList ImageList ImageBoundingBox_t
    PyVertex from_python_image from_python_camera_info from_python_box_list
    to_python_image_list ImageBoundingBox cropped_image_list box_vertices_vector
    array_to_python pSerialImageMsg pSerialCameraInfo pSerialBoundingBoxList =
    Ok (serialImageList, boxVerticesList) ->
  exists imageMsg camInfo boundingBoxList mImgBoundingBox,
    from_python_image pSerialImageMsg = Ok imageMsg /\
    from_python_camera_info pSerialCameraInfo = Ok camInfo /\
    from_python_box_list pSerialBoundingBoxList = Ok boundingBoxList /\
    ImageBoundingBox imageMsg camInfo boundingBoxList = Ok mImgBoundingBox /\
    serialImageList = to_python_image_list (cropped_image_list mImgBoundingBox) /\
    map length boxVerticesList = map length (box_vertices_vector mImgBoundingBox) /\
    Forall2 (Forall2 (vertex_object array_to_python))
      boxVerticesList (box_vertices_vector mImgBoundingBox).
Proof.
  unfold getCropsAndBoundingBoxes. intros H.
  apply obind_ok in H as (imageMsg & Hi & H).
  apply obind_ok in H as (camInfo & Hc & H).
  apply obind_ok in H as (boundingBoxList & Hb & H).
  apply obind_ok in H as (mImgBoundingBox & Hm & H).
  apply obind_ok in H as (l & Hl & H).
  injection H as <- <-.
  apply append_boxes_ok in Hl.
  exists imageMsg, camInfo, boundingBoxList, mImgBoundingBox.
  repeat (split; [assumption || reflexivity |]).
  split; [eapply Forall2_lengths; eassumption |].
  exact Hl.
Qed.

Lemma crops_and_boxes_shape_witness :
  exists imageMsg camInfo boundingBoxList mImgBoundingBox,
    MoreSamples.decode_image "image" = Ok imageMsg /\
    MoreSamples.decode_text "camera" = Ok camInfo /\
    MoreSamples.decode_text "boxes" = Ok boundingBoxList /\
    MoreSamples.make_cropper imageMsg camInfo boundingBoxList = Ok mImgBoundingBox /\
    "2 crops" = (fun _ => "2 crops") mImgBoundingBox /\
    map length
      [[(Samples.fl 1, Samples.fl 2); (Samples.fl 3, Samples.fl 4)];
       [(Samples.fl 5, Samples.fl 6)]] = map length mImgBoundingBox /\
    Forall2 (Forall2 (vertex_object MoreSamples.as_pair))
      [[(Samples.fl 1, Samples.fl 2); (Samples.fl 3, Samples.fl 4)];
       [(Samples.fl 5, Samples.fl 6)]] mImgBoundingBox.
Proof.
  apply (crops_and_boxes_shape string string (list (list Point2f))
           (list (list Point2f)) (spec_float * spec_float)
           MoreSamples.decode_image MoreSamples.decode_text MoreSamples.decode_text
           (fun _ => "2 crops") MoreSamples.make_cropper (fun c => c) (fun c => c)
           MoreSamples.as_pair "image" "camera" "boxes").
  reflexivity.
Defined.

(* ================================================================== *)
(** * Attributes *)
(* ================================================================== *)

(** X17.  What the constructor stored is what the attributes read: the
    label attribute is the label given, and each of "x", "y", "width",
    "height" reads the integer its item of the geometry tuple was cut
    to. *)
Theorem constructor_then_getattr (pLabel : string) (pColor pBox : list py_object)
    (box : BoundingBox2D) :
  BoundingBox2DWrapper pLabel pColor pBox = Ok box ->
  getattr box attr_label = PyStr pLabel /\
  Forall2 (fun o a => exists z, numeric_as o z /\ getattr box a = PyInt z)
    pBox [attr_x; attr_y; attr_width; attr_height].
Proof.
  intros H. apply constructor_ok_inv in H
    as (r & g & b & x & y & w & h & Hc & Hb & ->).
  split; [reflexivity |].
  inversion Hb as [| ? ? ? ? Hx Hb0]; subst.
  inversion Hb0 as [| ? ? ? ? Hy Hb1]; subst.
  inversion Hb1 as [| ? ? ? ? Hw Hb2]; subst.
  inversion Hb2 as [| ? ? ? ? Hh Hb3]; subst.
  inversion Hb3; subst.
  repeat (constructor; [eexists; split; [eassumption | reflexivity] |]).
  constructor.
Qed.

Lemma constructor_then_getattr_witness :
  getattr (mkBoundingBox2D "cup" (CV_RGB 255 0 0) (-1) (-2) 0 (-4)) attr_label =
    PyStr "cup" /\
  Forall2
    (fun o a => exists z, numeric_as o z /\
       getattr (mkBoundingBox2D "cup" (CV_RGB 255 0 0) (-1) (-2) 0 (-4)) a = PyInt z)
    [PyFloat Samples.minus_1_5; PyFloat Samples.minus_2_75;
     PyFloat Samples.quarter; PyFloat Samples.minus_4]
    [attr_x; attr_y; attr_width; attr_height].
Proof.
  apply (constructor_then_getattr "cup" Samples.red
           [PyFloat Samples.minus_1_5; PyFloat Samples.minus_2_75;
            PyFloat Samples.quarter; PyFloat Samples.minus_4]).
  vm_compute. reflexivity.
Defined.
